(** * The cloudcubes scheduler ([scheduler/app.py])

    A shallow embedding of the scheduling Lambda function and the
    properties of its decision logic.

    Conventions of the embedding.
    - A time of day is Python's [datetime.time]: the four fields hour,
      minute, second and microsecond, compared as a tuple.
    - The module global [current_time] (line 6) is read as a time of day;
      the name [datetime] is read as the class that has [now] and
      [strptime].
    - A DynamoDB item is a dictionary from attribute names to values; a
      value is a string, a number or a nested dictionary.
    - Exceptions are an explicit outcome; the calls made to the two
      dispatch stubs [start_server] and [stop_server] are recorded in a
      trace, in program order. *)

From Stdlib Require Import ZArith String Ascii List Bool Lia.
From stdpp Require Import base gmap strings list fin_maps.

Set Warnings "-register-all".
Local Open Scope Z_scope.

(** ** Times of day *)

Record time : Type := mktime {
  hour : Z;
  minute : Z;
  second : Z;
  microsecond : Z
}.

(** The range of each field of a [datetime.time]. *)
Definition valid_time (t : time) : Prop :=
  0 <= hour t < 24 /\ 0 <= minute t < 60 /\
  0 <= second t < 60 /\ 0 <= microsecond t < 1000000.

(** [time._cmp]: the tuples (hour, minute, second, microsecond) are
    compared lexicographically. *)
Definition time_cmp (a b : time) : comparison :=
  match hour a ?= hour b with
  | Eq =>
      match minute a ?= minute b with
      | Eq =>
          match second a ?= second b with
          | Eq => microsecond a ?= microsecond b
          | c => c
          end
      | c => c
      end
  | c => c
  end.

(** [a > b] and [a < b] on times of day. *)
Definition time_gt (a b : time) : bool :=
  match time_cmp a b with Gt => true | _ => false end.

Definition time_lt (a b : time) : bool :=
  match time_cmp a b with Lt => true | _ => false end.

(** Microseconds since midnight: the position of a time on the day. *)
Definition to_microseconds (t : time) : Z :=
  ((hour t * 60 + minute t) * 60 + second t) * 1000000 + microsecond t.

(** A time of day at minute resolution, [hm h m] is h:m:00. *)
Definition hm (h m : Z) : time := mktime h m 0 0.

(** The n-th minute of the day, for n from 0 to 1439. *)
Definition of_minute (n : Z) : time := hm (n / 60) (n mod 60).

(** ** Lines 62 to 72: should the server be online at [current_time]? *)

Definition should_be_online (current_time start_time stop_time : time) : bool :=
  let stop_after_start := time_gt stop_time start_time in
  if stop_after_start
  then time_gt current_time start_time && time_lt current_time stop_time
  else time_gt current_time start_time || time_lt current_time stop_time.

(** The window as section 4.1 of the specification words it:
    inclusive start, exclusive stop.  Used only to compare with
    [should_be_online]. *)
Definition desired_online_spec (now start stop : time) : bool :=
  if time_gt stop start
  then negb (time_lt now start) && time_lt now stop
  else negb (time_lt now start) || time_lt now stop.

(** ** Exceptions and outcomes *)

Inductive exn : Type :=
  | KeyError (key : string)
  | TypeError
  | ValueError.

Inductive outcome (A : Type) : Type :=
  | Return (a : A)
  | Raise (e : exn).
Arguments Return {A} a.
Arguments Raise {A} e.

(** ** [datetime.strptime(s, "%H:%M").time()]

    The format is compiled to the regular expression
    (2[0-3]|[0-1]\d|\d):([0-5]\d|\d), matched at the start of the string;
    the alternatives of a group are tried in order, and a later one is
    taken when the rest of the expression fails after an earlier one.
    Text left after the match is an error.  Digits are the ASCII ones. *)

Definition digit_of (c : ascii) : option Z :=
  let n := Z.of_N (N_of_ascii c) in
  if (48 <=? n) && (n <=? 57) then Some (n - 48) else None.

(** One alternative of a group: two digits accepted by [ok]. *)
Definition two_digits (ok : Z -> Z -> bool) (s : string) : option (Z * string) :=
  match s with
  | String c1 (String c2 rest) =>
      match digit_of c1, digit_of c2 with
      | Some d1, Some d2 => if ok d1 d2 then Some (10 * d1 + d2, rest) else None
      | _, _ => None
      end
  | _ => None
  end.

(** One alternative of a group: a single digit. *)
Definition one_digit (s : string) : option (Z * string) :=
  match s with
  | String c rest =>
      match digit_of c with
      | Some d => Some (d, rest)
      | None => None
      end
  | _ => None
  end.

(** Ordered choice with backtracking into the continuation [k]. *)
Fixpoint first_success {A B : Type} (alts : list (string -> option (A * string)))
    (k : A -> string -> option B) (s : string) : option B :=
  match alts with
  | [] => None
  | p :: ps =>
      match p s with
      | Some (a, rest) =>
          match k a rest with
          | Some b => Some b
          | None => first_success ps k s
          end
      | None => first_success ps k s
      end
  end.

Definition re_H : list (string -> option (Z * string)) :=
  [ two_digits (fun d1 d2 => (d1 =? 2) && (d2 <=? 3));
    two_digits (fun d1 _ => d1 <=? 1);
    one_digit ].

Definition re_M : list (string -> option (Z * string)) :=
  [ two_digits (fun d1 _ => d1 <=? 5);
    one_digit ].

Definition colon : ascii := ascii_of_nat 58.

Definition format_regex (s : string) : option (Z * Z * string) :=
  first_success re_H
    (fun h s1 =>
       match s1 with
       | String c s2 =>
           if Ascii.eqb c colon
           then first_success re_M (fun m s3 => Some (h, m, s3)) s2
           else None
       | EmptyString => None
       end) s.

Definition strptime (data_string : string) : outcome time :=
  match format_regex data_string with
  | None => Raise ValueError
  | Some (h, m, EmptyString) => Return (hm h m)
  | Some (_, _, String _ _) => Raise ValueError
  end.

(** The text HH:MM of a time at minute resolution, two digits each. *)
Definition digit_char (d : Z) : ascii := ascii_of_N (Z.to_N (48 + d)).

Definition HHMM (h m : Z) : string :=
  String (digit_char (h / 10)) (String (digit_char (h mod 10))
    (String colon
      (String (digit_char (m / 10)) (String (digit_char (m mod 10)) EmptyString)))).


(** ** Items of the table *)

Inductive value : Type :=
  | VStr (s : string)
  | VNum (n : Z)
  | VMap (m : gmap string value).

(** [v[key]] for a string key: a dictionary is looked up, a missing key is
    a KeyError; a string or a number cannot be indexed by a string. *)
Definition getitem (v : value) (key : string) : outcome value :=
  match v with
  | VMap m =>
      match m !! key with
      | Some x => Return x
      | None => Raise (KeyError key)
      end
  | VStr _ | VNum _ => Raise TypeError
  end.

(** [strptime] wants a string. *)
Definition strptime_value (v : value) : outcome time :=
  match v with
  | VStr s => strptime s
  | VNum _ | VMap _ => Raise TypeError
  end.

(** [v[k1][k2]...]: the subscripts are applied from left to right. *)
Fixpoint subscript (v : value) (keys : list string) : outcome value :=
  match keys with
  | [] => Return v
  | key :: rest =>
      match getitem v key with
      | Return x => subscript x rest
      | Raise e => Raise e
      end
  end.

(** The item carries a schedule of the shape the code reads, with the two
    texts [start] and [stop]. *)
Definition has_schedule (server : gmap string value) (start stop : string) : Prop :=
  subscript (VMap server) ["Schedule"; "M"; "Start-Time"; "S"]%string = Return (VStr start) /\
  subscript (VMap server) ["Schedule"; "M"; "Stop-Time"; "S"]%string = Return (VStr stop).

(** ** Effects: an outcome together with the calls dispatched so far *)

Inductive call : Type :=
  | CallStart (server : gmap string value)
  | CallStop (server : gmap string value).

Definition M (A : Type) : Type := (outcome A * list call)%type.

Definition ret {A : Type} (a : A) : M A := (Return a, []).

Definition bind {A B : Type} (m : M A) (k : A -> M B) : M B :=
  match m with
  | (Return a, t) => let (r, t') := k a in (r, t ++ t')
  | (Raise e, t) => (Raise e, t)
  end.

(** A computation without calls, run inside [M]. *)
Definition lift {A : Type} (o : outcome A) : M A := (o, []).

Declare Scope py_scope.
Delimit Scope py_scope with py.
Notation "'do' x <- m ; k" := (bind m (fun x => k))
  (at level 10, x name, m at level 100, k at level 200) : py_scope.
Notation "'run' m ; k" := (bind m (fun _ => k))
  (at level 10, m at level 100, k at level 200) : py_scope.

(** What a Python expression evaluates to where the code tests it. *)
Inductive pyobj : Type :=
  | PyNone
  | PyBool (b : bool).

Definition truthy (o : pyobj) : bool :=
  match o with
  | PyNone => false
  | PyBool b => b
  end.

(** The action a call trace of one record amounts to. *)
Inductive action : Type := Start | Stop | NoOp.

Definition is_start (c : call) : bool :=
  match c with CallStart _ => true | CallStop _ => false end.

Definition is_stop (c : call) : bool :=
  match c with CallStart _ => false | CallStop _ => true end.

(** ** The functions of [app.py] *)

(** Lines 82 to 88: both bodies are [pass]; the call itself is recorded. *)
Definition start_server (server : gmap string value) : M unit :=
  (Return tt, [CallStart server]).

Definition stop_server (server : gmap string value) : M unit :=
  (Return tt, [CallStop server]).

(** Lines 90 to 92: the body is the expression statement [False]; nothing
    is returned, so the call evaluates to None. *)
Definition is_server_online (server : gmap string value) : pyobj :=
  let _ := PyBool false in PyNone.

(** Line 48: the scan keeps the three projected attributes of every item. *)
Definition projection : list string := ["Id"; "Schedule"; "Server_State"]%string.

Definition _get_server_data (table : list (gmap string value))
  : list (gmap string value) :=
  map (filter (fun kv : string * value => kv.1 ∈ projection)) table.

(** Lines 35 to 40: the value the handler returns. *)
Record response : Type := mkresponse {
  statusCode : Z;
  body : string
}.

Definition dquote : string := String (ascii_of_nat 34) EmptyString.

(** [json.dumps] of a dictionary literal whose keys and values are strings
    that need no escaping. *)
Fixpoint json_members (kvs : list (string * string)) : string :=
  match kvs with
  | [] => ""
  | [(k, v)] => dquote +:+ k +:+ dquote +:+ ": " +:+ dquote +:+ v +:+ dquote
  | (k, v) :: rest =>
      dquote +:+ k +:+ dquote +:+ ": " +:+ dquote +:+ v +:+ dquote +:+ ", "
      +:+ json_members rest
  end.

Definition json_dumps (kvs : list (string * string)) : string :=
  "{" +:+ json_members kvs +:+ "}".

Section Module.

(** Line 6: the module global, assigned once when the module is loaded. *)
Variable current_time : time.

Local Open Scope py_scope.

(** Lines 50 to 80. *)
Definition update_server (server : gmap string value) : M unit :=
  if negb (bool_decide (is_Some (server !! "Schedule"%string)))
  then ret tt
  else
    do start_time_str <-
      lift (subscript (VMap server) ["Schedule"; "M"; "Start-Time"; "S"]%string);
    do start_time <- lift (strptime_value start_time_str);
    do stop_time_str <-
      lift (subscript (VMap server) ["Schedule"; "M"; "Stop-Time"; "S"]%string);
    do stop_time <- lift (strptime_value stop_time_str);
    let should := should_be_online current_time start_time stop_time in
    let server_online := is_server_online server in
    if should && negb (truthy server_online)
    then start_server server
    else if truthy server_online && negb should
    then stop_server server
    else ret tt.

(** Lines 32 and 33: the loop over the scanned items. *)
Fixpoint update_servers (data : list (gmap string value)) : M unit :=
  match data with
  | [] => ret tt
  | server :: rest => run update_server server; update_servers rest
  end.

(** Lines 8 to 40.  [table] is the content of the table that
    [_get_table] names; [event] and [context] are not used. *)
Definition lambda_handler (event context : value)
    (table : list (gmap string value)) : M response :=
  let data := _get_server_data table in
  run update_servers data;
  ret {| statusCode := 200;
         body := json_dumps [("message", "hello world")]%string |}.

End Module.

(** ** A process: the module is loaded once, then the handler is invoked

    A [world] is what the environment holds at one instant: the wall clock
    and the content of the table. *)
Record world : Type := mkworld {
  clock : time;
  table_items : list (gmap string value)
}.

Record module_globals : Type := mkglobals {
  current_time : time
}.

(** Loading the module runs line 6, the only place that reads the clock. *)
Definition load_module (w : world) : module_globals :=
  {| current_time := clock w |}.

(** One invocation of the handler, in the world of that instant. *)
Definition invoke (g : module_globals) (w : world) : M response :=
  lambda_handler (current_time g) (VMap ∅) (VMap ∅) (table_items w).

(** The module is loaded in [w0]; the handler then runs once in each world
    of [ws], in order. *)
Definition process (w0 : world) (ws : list world) : list (M response) :=
  let g := load_module w0 in
  map (invoke g) ws.

(** ** Concrete items used in the examples *)

Local Open Scope string_scope.

(** The schedule attribute with the two texts. *)
Definition schedule_attr (start stop : string) : value :=
  VMap {[ "M" :=
    VMap (<["Start-Time" := VMap {[ "S" := VStr start ]}]>
            {[ "Stop-Time" := VMap {[ "S" := VStr stop ]} ]}) ]}.

(** An item with an identifier, a schedule and a stored state. *)
Definition scheduled_item (id start stop : string) (state : value)
  : gmap string value :=
  <["Id" := VStr id]>
    (<["Schedule" := schedule_attr start stop]> {[ "Server_State" := state ]}).

(** An item without a schedule. *)
Definition unscheduled_item (id : string) (state : value) : gmap string value :=
  <["Id" := VStr id]> {[ "Server_State" := state ]}.

(** A record whose start text is not a time, and one that is due a start
    at noon. *)
Definition item_bad : gmap string value :=
  scheduled_item "bad" "9am" "17:00" (VStr "Offline").

Definition item_good : gmap string value :=
  scheduled_item "good" "09:00" "17:00" (VStr "Offline").

(** The response of lines 35 to 40. *)
Definition hello_world : response :=
  {| statusCode := 200;
     body := json_dumps [("message", "hello world")]%string |}.

Local Close Scope string_scope.

(** ** Reading a trace *)

(** The number of starts in a trace. *)
Definition started_count (calls : list call) : nat :=
  length (List.filter is_start calls).

(** What section 4.2 of the specification asks of the step, for
    comparison with [update_server]. *)
Inductive observed_state : Type := Online | Offline | Unknown.

Definition reconcile_spec (desired : bool) (observed : observed_state) : action :=
  match desired, observed with
  | true, Online => NoOp
  | true, (Offline | Unknown) => Start
  | false, Online => Stop
  | false, (Offline | Unknown) => NoOp
  end.

(** The action one record's trace amounts to. *)
Definition action_of (calls : list call) : action :=
  match calls with
  | [] => NoOp
  | CallStart _ :: _ => Start
  | CallStop _ :: _ => Stop
  end.

(** ** The environment of the function (lines 30 and 42 to 45) *)

(** [os.environ['DATABASE_NAME']]: the table is named by a variable of the
    environment, and a missing variable is a KeyError.  The handle that
    [dynamodb.Table] returns is the name itself. *)
Definition _get_table (environ : gmap string string) : outcome string :=
  match environ !! "DATABASE_NAME"%string with
  | Some database_name => Return database_name
  | None => Raise (KeyError "DATABASE_NAME")
  end.

(** The handler from its first line: [dynamodb] gives the items stored
    under each table name.  Failures of the service itself are not part of
    this model. *)
Definition lambda_handler_in (environ : gmap string string)
    (dynamodb : string -> list (gmap string value))
    (current_time : time) (event context : value) : M response :=
  bind (lift (_get_table environ))
    (fun table => lambda_handler current_time event context (dynamodb table)).

(** A record has the key that line 51 tests. *)
Definition scheduled (server : gmap string value) : bool :=
  bool_decide (is_Some (server !! "Schedule"%string)).

(** The minutes of the day, out of the 1440, at which a window given in
    minutes asks for the server. *)
Definition minutes_online (start stop : Z) : nat :=
  length
    (List.filter
       (fun n => should_be_online (of_minute (Z.of_nat n))
                   (of_minute start) (of_minute stop))
       (seq 0 1440)).

(** ** The stack that deploys the function ([cloudcubes_stack.py]) *)

Module Stack.

Local Open Scope string_scope.

Inductive Effect : Type := ALLOW | DENY.

Record PolicyStatement : Type := mkstatement {
  effect : Effect;
  resources : list string;
  actions : list string
}.

Record Function : Type := mkfunction {
  runtime : string;
  code : string;
  handler : string;
  environment : gmap string string;
  role_policy : list PolicyStatement
}.

Definition add_to_role_policy (f : Function) (statement : PolicyStatement)
  : Function :=
  {| runtime := runtime f; code := code f; handler := handler f;
     environment := environment f;
     role_policy := role_policy f ++ [statement] |}.

Section Parameters.

(** The two parameters of the stack (lines 13 to 21). *)
Variable db_name : string.
Variable data_bucket_name : string.

(** Attributes of constructs the stack creates, known at deployment. *)
Variable resources_bucket_name : string.
Variable server_instance_profile_arn : string.
Variable server_role_arn : string.

(** Lines 24 to 39. *)
Definition database_perms : PolicyStatement :=
  {| effect := ALLOW;
     resources := ["arn:aws:dynamodb:*:*:table/" +:+ db_name];
     actions := [ "dynamodb:BatchGetItem"; "dynamodb:BatchWriteItem";
                  "dynamodb:ConditionCheckItem"; "dynamodb:PutItem";
                  "dynamodb:DescribeTable"; "dynamodb:DeleteItem";
                  "dynamodb:GetItem"; "dynamodb:Scan"; "dynamodb:Query";
                  "dynamodb:UpdateItem" ] |}.

(** Lines 107 to 121. *)
Definition start_server_perms : PolicyStatement :=
  {| effect := ALLOW;
     resources := ["*"];
     actions := ["ec2:RequestSpotInstances"] |}.

Definition pass_server_role_perms : PolicyStatement :=
  {| effect := ALLOW;
     resources := [server_role_arn];
     actions := ["iam:GetRole"; "iam:PassRole"] |}.

(** Lines 139 to 159. *)
Definition list_ssm_actions_perms : PolicyStatement :=
  {| effect := ALLOW;
     resources := ["*"];
     actions := [ "ssm:ListDocuments"; "ssm:DescribeDocument";
                  "ssm:GetDocument"; "ssm:DescribeInstance*" ] |}.

Definition run_command_perms : PolicyStatement :=
  {| effect := ALLOW;
     resources := [ "arn:aws:ec2:*:*:instance/*";
                    "arn:aws:ssm:*:*:document/AWS-RunShellScript" ];
     actions := ["ssm:SendCommand"] |}.

(** Lines 54 to 62. *)
Definition scheduler_function : Function :=
  add_to_role_policy
    {| runtime := "python3.8"; code := "./scheduler";
       handler := "app.lambda_handler";
       environment := {[ "DATABASE_NAME" := db_name ]};
       role_policy := [] |}
    database_perms.

(** Lines 124 to 137. *)
Definition server_starter_function : Function :=
  add_to_role_policy
    (add_to_role_policy
       (add_to_role_policy
          {| runtime := "python3.8"; code := "./server-starter";
             handler := "app.lambda_handler";
             environment :=
               <["DATABASE_NAME" := db_name]>
                 (<["RESOURCES_BUCKET" := resources_bucket_name]>
                    (<["DATA_BUCKET" := data_bucket_name]>
                       {[ "SERVER_INSTANCE_PROFILE" := server_instance_profile_arn ]}));
             role_policy := [] |}
          database_perms)
       start_server_perms)
    pass_server_role_perms.

(** Lines 162 to 172. *)
Definition server_stopper_function : Function :=
  add_to_role_policy
    (add_to_role_policy
       (add_to_role_policy
          {| runtime := "python3.8"; code := "./server-stopper";
             handler := "app.lambda_handler";
             environment := {[ "DATABASE_NAME" := db_name ]};
             role_policy := [] |}
          database_perms)
       list_ssm_actions_perms)
    run_command_perms.

(** The three Lambda functions of the stack. *)
Definition functions : list Function :=
  [scheduler_function; server_starter_function; server_stopper_function].

End Parameters.

(** A statement allows [action] on [resource] when it lists both, letter
    for letter. *)
Definition lists (statement : PolicyStatement) (action resource : string) : bool :=
  match effect statement with
  | ALLOW =>
      bool_decide (action ∈ actions statement) &&
      bool_decide (resource ∈ resources statement)
  | DENY => false
  end.

End Stack.

(** * Properties *)

(** ** The order on times of day *)

Section TimeOrder.

Variables a b : time.
Hypothesis Ha : valid_time a.
Hypothesis Hb : valid_time b.

Lemma time_cmp_spec :
  time_cmp a b = (to_microseconds a ?= to_microseconds b).
Proof using Ha Hb.
  destruct Ha as (Hh & Hm & Hs & Hu), Hb as (Hh' & Hm' & Hs' & Hu').
  unfold time_cmp, to_microseconds.
  destruct (Z.compare_spec (hour a) (hour b)) as [E1 | L1 | G1];
    [ destruct (Z.compare_spec (minute a) (minute b)) as [E2 | L2 | G2];
      [ destruct (Z.compare_spec (second a) (second b)) as [E3 | L3 | G3];
        [ destruct (Z.compare_spec (microsecond a) (microsecond b)) | | ] | | ]
    | | ];
    symmetry;
    first [ apply Z.compare_eq_iff | apply Z.compare_lt_iff | apply Z.compare_gt_iff ];
    lia.
Qed.

Lemma time_gt_iff : time_gt a b = true <-> to_microseconds b < to_microseconds a.
Proof using Ha Hb.
  unfold time_gt. rewrite time_cmp_spec.
  destruct (Z.compare_spec (to_microseconds a) (to_microseconds b));
    split; intros; try discriminate; try lia; reflexivity.
Qed.

Lemma time_lt_iff : time_lt a b = true <-> to_microseconds a < to_microseconds b.
Proof using Ha Hb.
  unfold time_lt. rewrite time_cmp_spec.
  destruct (Z.compare_spec (to_microseconds a) (to_microseconds b));
    split; intros; try discriminate; try lia; reflexivity.
Qed.

End TimeOrder.

Lemma time_cmp_eq (a b : time) : time_cmp a b = Eq <-> a = b.
Proof.
  split.
  - destruct a as [h m s u], b as [h' m' s' u']. unfold time_cmp. simpl.
    destruct (Z.compare_spec h h'); try discriminate.
    destruct (Z.compare_spec m m'); try discriminate.
    destruct (Z.compare_spec s s'); try discriminate.
    destruct (Z.compare_spec u u'); try discriminate.
    intros _. congruence.
  - intros ->. unfold time_cmp. now rewrite !Z.compare_refl.
Qed.

Lemma time_cmp_antisym (a b : time) : time_cmp a b = CompOpp (time_cmp b a).
Proof.
  unfold time_cmp.
  rewrite (Z.compare_antisym (hour a) (hour b)),
          (Z.compare_antisym (minute a) (minute b)),
          (Z.compare_antisym (second a) (second b)),
          (Z.compare_antisym (microsecond a) (microsecond b)).
  destruct (hour a ?= hour b), (minute a ?= minute b), (second a ?= second b),
           (microsecond a ?= microsecond b); reflexivity.
Qed.

(** The strict window of the code and the half-open window of the
    specification disagree at one instant only, the start itself. *)
Lemma should_be_online_vs_inclusive (now start stop : time) :
  should_be_online now start stop <> desired_online_spec now start stop
  <-> now = start.
Proof.
  unfold should_be_online, desired_online_spec, time_gt, time_lt.
  pose proof (time_cmp_eq now start) as Heq.
  split.
  - intros Hdiff.
    destruct (time_cmp now start); [now apply Heq | |]; exfalso; apply Hdiff;
      reflexivity.
  - intros ->.
    replace (time_cmp start start) with Eq by (symmetry; now apply time_cmp_eq).
    rewrite (time_cmp_antisym start stop).
    destruct (time_cmp stop start); cbn; discriminate.
Qed.

Lemma valid_hm (h m : Z) : 0 <= h < 24 -> 0 <= m < 60 -> valid_time (hm h m).
Proof. unfold valid_time, hm. simpl. lia. Qed.

Lemma valid_of_minute (n : Z) : 0 <= n < 1440 -> valid_time (of_minute n).
Proof.
  intros Hn. apply valid_hm.
  - split; [apply Z.div_pos; lia | apply Z.div_lt_upper_bound; lia].
  - apply Z.mod_pos_bound. lia.
Qed.

Lemma to_microseconds_of_minute (n : Z) :
  to_microseconds (of_minute n) = n * 60000000.
Proof.
  unfold to_microseconds, of_minute, hm. simpl.
  pose proof (Z.div_mod n 60). lia.
Qed.

(** ** Parsing the text of a time *)

Example strptime_0900 : strptime "09:00" = Return (hm 9 0).
Proof. reflexivity. Qed.

Example strptime_short : strptime "9:5" = Return (hm 9 5).
Proof. reflexivity. Qed.

Example strptime_2400 : strptime "24:00" = Raise ValueError.
Proof. reflexivity. Qed.

Example strptime_0960 : strptime "09:60" = Raise ValueError.
Proof. reflexivity. Qed.

Example strptime_trailing : strptime "09:00 " = Raise ValueError.
Proof. reflexivity. Qed.

Example HHMM_1659 : HHMM 16 59 = "16:59"%string.
Proof. reflexivity. Qed.

Lemma digit_of_char (d : Z) : 0 <= d <= 9 -> digit_of (digit_char d) = Some d.
Proof.
  intros Hd.
  assert (d = 0 \/ d = 1 \/ d = 2 \/ d = 3 \/ d = 4 \/
          d = 5 \/ d = 6 \/ d = 7 \/ d = 8 \/ d = 9) as Hcases by lia.
  repeat (destruct Hcases as [-> | Hcases]; [reflexivity |]).
  subst d. reflexivity.
Qed.

(** The minute group takes both digits of a two-digit minute below 60. *)
Lemma re_M_two_digits (h m1 m2 : Z) :
  0 <= m1 <= 5 -> 0 <= m2 <= 9 ->
  first_success re_M (fun m s3 => Some (h, m, s3))
    (String (digit_char m1) (String (digit_char m2) EmptyString))
  = Some (h, 10 * m1 + m2, EmptyString).
Proof.
  intros H1 H2. unfold re_M, first_success, two_digits.
  rewrite !digit_of_char by lia.
  destruct (Z.leb_spec m1 5); [reflexivity | lia].
Qed.

(** A well-formed text HH:MM parses to the time it denotes. *)
Lemma strptime_HHMM (h m : Z) :
  0 <= h < 24 -> 0 <= m < 60 -> strptime (HHMM h m) = Return (hm h m).
Proof.
  intros Hh Hm.
  pose proof (Z.div_mod h 10 ltac:(lia)) as Eh.
  pose proof (Z.mod_pos_bound h 10 ltac:(lia)) as Bh.
  pose proof (Z.div_mod m 10 ltac:(lia)) as Em.
  pose proof (Z.mod_pos_bound m 10 ltac:(lia)) as Bm.
  assert (0 <= h / 10 <= 2) as Bh1 by lia.
  assert (0 <= m / 10 <= 5) as Bm1 by lia.
  pose proof (re_M_two_digits h (m / 10) (m mod 10) ltac:(lia) ltac:(lia)) as HM.
  unfold strptime, format_regex, HHMM.
  unfold re_H, first_success at 1, two_digits at 1.
  rewrite !digit_of_char by lia.
  replace (10 * (h / 10) + h mod 10) with h by lia.
  destruct ((h / 10 =? 2) && (h mod 10 <=? 3)) eqn:Etwenty.
  - change (Ascii.eqb colon colon) with true. cbv iota.
    rewrite HM.
    replace (10 * (m / 10) + m mod 10) with m by lia. reflexivity.
  - cbv iota. unfold two_digits at 1.
    rewrite !digit_of_char by lia.
    replace (10 * (h / 10) + h mod 10) with h by lia.
    destruct (Z.leb_spec (h / 10) 1) as [Hle | Hgt].
    + change (Ascii.eqb colon colon) with true. cbv iota.
      rewrite HM.
      replace (10 * (m / 10) + m mod 10) with m by lia. reflexivity.
    + apply andb_false_iff in Etwenty.
      destruct Etwenty as [E | E]; [apply Z.eqb_neq in E | apply Z.leb_gt in E]; lia.
Qed.

(** ** One record *)

Section OneRecord.

Variable now : time.
Variable server : gmap string value.

Lemma has_schedule_key (start stop : string) :
  has_schedule server start stop -> is_Some (server !! "Schedule"%string).
Proof.
  intros [Hstart _]. unfold subscript, getitem in Hstart.
  destruct (server !! "Schedule"%string); [eauto | discriminate].
Qed.

(** A record without the key is left before anything is read. *)
Lemma update_server_unscheduled :
  server !! "Schedule"%string = None -> update_server now server = (Return tt, []).
Proof.
  intros Hnone. unfold update_server. rewrite Hnone.
  rewrite bool_decide_eq_false_2; [reflexivity |].
  intros [x Hx]. discriminate.
Qed.

(** A record whose two texts parse: the decision is [should_be_online],
    and the only call there can be is the start. *)
Lemma update_server_scheduled (start stop : string) (start_time stop_time : time) :
  has_schedule server start stop ->
  strptime start = Return start_time ->
  strptime stop = Return stop_time ->
  update_server now server =
    (Return tt,
     if should_be_online now start_time stop_time then [CallStart server] else []).
Proof.
  intros Hsched Hstart Hstop.
  pose proof (has_schedule_key _ _ Hsched) as Hkey.
  destruct Hsched as [Hs1 Hs2].
  unfold update_server.
  rewrite bool_decide_eq_true_2 by exact Hkey.
  cbn [negb]. rewrite Hs1, Hs2.
  unfold lift, bind, strptime_value. rewrite Hstart, Hstop.
  unfold is_server_online, truthy. cbn [andb negb].
  rewrite andb_true_r.
  destruct (should_be_online now start_time stop_time); reflexivity.
Qed.

(** A record whose start text does not parse: the exception leaves
    [update_server] before any call. *)
Lemma update_server_bad_start (start : string) (e : exn) :
  subscript (VMap server) ["Schedule"; "M"; "Start-Time"; "S"]%string
    = Return (VStr start) ->
  strptime start = Raise e ->
  update_server now server = (Raise e, []).
Proof.
  intros Hs1 Hparse.
  assert (is_Some (server !! "Schedule"%string)) as Hkey.
  { unfold subscript, getitem in Hs1.
    destruct (server !! "Schedule"%string); [eauto | discriminate]. }
  unfold update_server.
  rewrite bool_decide_eq_true_2 by exact Hkey.
  cbn [negb]. rewrite Hs1.
  unfold lift, bind, strptime_value. rewrite Hparse. reflexivity.
Qed.

(** Whatever the record, the trace of its update is empty or the single
    start of that record. *)
Lemma update_server_calls :
  snd (update_server now server) = [] \/
  snd (update_server now server) = [CallStart server].
Proof.
  unfold update_server.
  destruct (negb (bool_decide (is_Some (server !! "Schedule"%string))));
    [left; reflexivity |].
  unfold lift, bind.
  destruct (subscript (VMap server) ["Schedule"; "M"; "Start-Time"; "S"]%string)
    as [v1 | e1]; [| left; reflexivity].
  destruct (strptime_value v1) as [t1 | e2]; [| left; reflexivity].
  destruct (subscript (VMap server) ["Schedule"; "M"; "Stop-Time"; "S"]%string)
    as [v2 | e3]; [| left; reflexivity].
  destruct (strptime_value v2) as [t2 | e4]; [| left; reflexivity].
  unfold is_server_online, truthy. cbn [andb negb].
  destruct (should_be_online now t1 t2); [right | left]; reflexivity.
Qed.

Lemma update_server_no_stop :
  forallb (fun c => negb (is_stop c)) (snd (update_server now server)) = true.
Proof.
  destruct update_server_calls as [-> | ->]; reflexivity.
Qed.

End OneRecord.

(** ** The loop *)

Section Loop.

Variable now : time.

Lemma update_servers_cons (server : gmap string value)
    (rest : list (gmap string value)) :
  update_servers now (server :: rest) =
    bind (update_server now server) (fun _ => update_servers now rest).
Proof. reflexivity. Qed.

Lemma update_servers_no_stop (data : list (gmap string value)) :
  forallb (fun c => negb (is_stop c)) (snd (update_servers now data)) = true.
Proof.
  induction data as [| server rest IH]; [reflexivity |].
  rewrite update_servers_cons. unfold bind.
  pose proof (update_server_no_stop now server) as Hone.
  destruct (update_server now server) as [[[] | e] t]; [| exact Hone].
  destruct (update_servers now rest) as [r t']. cbn [snd] in *.
  rewrite forallb_app, Hone, IH. reflexivity.
Qed.

(** The records before a raising one run to the end; those after it are
    never reached. *)
Lemma update_servers_abort (before after : list (gmap string value))
    (bad : gmap string value) (e : exn) :
  fst (update_servers now before) = Return tt ->
  fst (update_server now bad) = Raise e ->
  update_servers now (before ++ bad :: after) =
    (Raise e, snd (update_servers now before) ++ snd (update_server now bad)).
Proof.
  intros Hbefore Hbad.
  induction before as [| server rest IH].
  - cbn [app]. rewrite update_servers_cons. unfold bind.
    destruct (update_server now bad) as [r t]. cbn [fst snd] in *. subst r.
    reflexivity.
  - rewrite <- app_comm_cons, !update_servers_cons in *. unfold bind in *.
    destruct (update_server now server) as [[[] | e'] t]; [| discriminate].
    destruct (update_servers now rest) as [r t'] eqn:Erest.
    cbn [fst] in Hbefore. specialize (IH Hbefore).
    rewrite IH. cbn [snd]. now rewrite app_assoc.
Qed.

(** When every record returns, so does the loop. *)
Lemma update_servers_returns (data : list (gmap string value)) :
  Forall (fun server => fst (update_server now server) = Return tt) data ->
  fst (update_servers now data) = Return tt.
Proof.
  induction 1 as [| server rest Hone _ IH]; [reflexivity |].
  rewrite update_servers_cons. unfold bind.
  destruct (update_server now server) as [[[] | e] t]; [| discriminate].
  destruct (update_servers now rest) as [r t']. exact IH.
Qed.

End Loop.

(** A record that raises has dispatched nothing. *)
Lemma update_server_raise_no_calls (now : time) (server : gmap string value)
    (e : exn) :
  fst (update_server now server) = Raise e -> snd (update_server now server) = [].
Proof.
  unfold update_server.
  destruct (negb (bool_decide (is_Some (server !! "Schedule"%string))));
    [reflexivity |].
  unfold lift, bind.
  destruct (subscript (VMap server) ["Schedule"; "M"; "Start-Time"; "S"]%string)
    as [v1 | e1]; [| reflexivity].
  destruct (strptime_value v1) as [t1 | e2]; [| reflexivity].
  destruct (subscript (VMap server) ["Schedule"; "M"; "Stop-Time"; "S"]%string)
    as [v2 | e3]; [| reflexivity].
  destruct (strptime_value v2) as [t2 | e4]; [| reflexivity].
  unfold is_server_online, truthy. cbn [andb negb].
  destruct (should_be_online now t1 t2); discriminate.
Qed.

(** [strptime] raises nothing but ValueError. *)
Lemma strptime_raises_ValueError (s : string) (e : exn) :
  strptime s = Raise e -> e = ValueError.
Proof.
  unfold strptime.
  destruct (format_regex s) as [[[h m] [| c rest]] |]; congruence.
Qed.

(** A record whose start text parses and whose stop text does not. *)
Lemma update_server_bad_stop (now : time) (server : gmap string value)
    (start stop : string) (start_time : time) (e : exn) :
  has_schedule server start stop ->
  strptime start = Return start_time ->
  strptime stop = Raise e ->
  update_server now server = (Raise e, []).
Proof.
  intros Hsched Hstart Hstop.
  pose proof (has_schedule_key _ _ _ Hsched) as Hkey.
  destruct Hsched as [Hs1 Hs2].
  unfold update_server.
  rewrite bool_decide_eq_true_2 by exact Hkey.
  cbn [negb]. rewrite Hs1, Hs2.
  unfold lift, bind, strptime_value. rewrite Hstart, Hstop. reflexivity.
Qed.

(** ** The handler *)


Lemma lambda_handler_unfold (now : time) (event context : value)
    (table : list (gmap string value)) :
  lambda_handler now event context table =
    match update_servers now (_get_server_data table) with
    | (Return _, t) => (Return hello_world, t)
    | (Raise e, t) => (Raise e, t)
    end.
Proof.
  unfold lambda_handler, bind, ret.
  destruct (update_servers now (_get_server_data table)) as [[[] | e] t];
    [| reflexivity].
  now rewrite app_nil_r.
Qed.

Lemma lambda_handler_calls (now : time) (event context : value)
    (table : list (gmap string value)) :
  snd (lambda_handler now event context table) =
  snd (update_servers now (_get_server_data table)).
Proof.
  rewrite lambda_handler_unfold.
  destruct (update_servers now (_get_server_data table)) as [[[] | e] t];
    reflexivity.
Qed.

(** ** The concrete items *)

Lemma scheduled_item_has_schedule (id start stop : string) (state : value) :
  has_schedule (scheduled_item id start stop state) start stop.
Proof.
  unfold has_schedule, scheduled_item, schedule_attr, subscript, getitem.
  split; by simplify_map_eq.
Qed.


(** * The claims *)

(** ** The window (lines 62 to 72) *)






(** ** One record (lines 50 to 80) *)


(** The branch of lines 77 to 80 on its own, for the truth value of
    [server_online] it is given, follows the table of section 4.2. *)
Lemma branch_follows_table (should server_online : bool) :
  (if should && negb server_online then Start
   else if server_online && negb should then Stop
   else NoOp)
  = reconcile_spec should (if server_online then Online else Offline).
Proof. destruct should, server_online; reflexivity. Qed.




(** C8: a record without the attribute Schedule is left at once, whatever
    the time: nothing is read or parsed, nothing is compared, no call is
    made, and the loop goes on with the next record. *)
Theorem C8_unscheduled_is_skipped (now : time) (server : gmap string value)
    (rest : list (gmap string value)) :
  server !! "Schedule"%string = None ->
  update_server now server = (Return tt, []) /\
  update_servers now (server :: rest) = update_servers now rest.
Proof.
  intros Hnone.
  pose proof (update_server_unscheduled now server Hnone) as Hskip.
  split; [exact Hskip |].
  rewrite update_servers_cons, Hskip. unfold bind.
  destruct (update_servers now rest) as [r t]. reflexivity.
Qed.

(** An item with an identifier and a stored state only, at noon. *)
Lemma C8_unscheduled_is_skipped_witness :
  unscheduled_item "a" (VStr "Online") !! "Schedule"%string = None /\
  update_server (hm 12 0) (unscheduled_item "a" (VStr "Online")) = (Return tt, []).
Proof.
  assert (unscheduled_item "a" (VStr "Online") !! "Schedule"%string = None) as Hnone
    by reflexivity.
  split; [exact Hnone |].
  exact (proj1 (C8_unscheduled_is_skipped (hm 12 0)
                  (unscheduled_item "a" (VStr "Online")) [] Hnone)).
Defined.

(** ** A pass (lines 30 to 40) *)








(** C10: [is_server_online] evaluates to None, which is false where it is
    tested, for every record; so no record's update and no pass contains
    a call of [stop_server]. *)
Theorem C10_stop_is_never_dispatched :
  (forall server, is_server_online server = PyNone /\
                  truthy (is_server_online server) = false) /\
  (forall now server stopped,
     ~ In (CallStop stopped) (snd (update_server now server))) /\
  (forall now event context table stopped,
     ~ In (CallStop stopped) (snd (lambda_handler now event context table))).
Proof.
  split; [intros server; split; reflexivity |].
  split.
  - intros now server stopped Hin.
    pose proof (update_server_no_stop now server) as Hno.
    rewrite forallb_forall in Hno. specialize (Hno _ Hin). discriminate.
  - intros now event context table stopped Hin.
    rewrite lambda_handler_calls in Hin.
    pose proof (update_servers_no_stop now (_get_server_data table)) as Hno.
    rewrite forallb_forall in Hno. specialize (Hno _ Hin). discriminate.
Qed.

(** ** Consecutive passes of one process *)



(** * Further properties of the code *)

(** ** The window *)

Lemma time_gt_lt (a b : time) : time_gt a b = time_lt b a.
Proof.
  unfold time_gt, time_lt. rewrite (time_cmp_antisym a b).
  destruct (time_cmp b a); reflexivity.
Qed.

Lemma time_cmp_refl (a : time) : time_cmp a a = Eq.
Proof. now apply time_cmp_eq. Qed.

Lemma time_neq_gt_lt (a b : time) : a <> b -> time_gt a b = negb (time_lt a b).
Proof.
  intros Hne. unfold time_gt, time_lt.
  pose proof (time_cmp_eq a b) as Heq.
  destruct (time_cmp a b); try reflexivity.
  exfalso. apply Hne. now apply Heq.
Qed.




(** ** Counting the minutes of a window *)

Lemma time_gt_of_minute (a b : Z) :
  0 <= a < 1440 -> 0 <= b < 1440 ->
  time_gt (of_minute a) (of_minute b) = (b <? a).
Proof.
  intros Ha Hb.
  pose proof (time_gt_iff _ _ (valid_of_minute a Ha) (valid_of_minute b Hb)) as Hiff.
  rewrite !to_microseconds_of_minute in Hiff.
  destruct (Z.ltb_spec b a) as [Hlt | Hge].
  - apply Hiff. lia.
  - apply not_true_is_false. intros Htrue. apply Hiff in Htrue. lia.
Qed.

Lemma time_lt_of_minute (a b : Z) :
  0 <= a < 1440 -> 0 <= b < 1440 ->
  time_lt (of_minute a) (of_minute b) = (a <? b).
Proof.
  intros Ha Hb. rewrite <- time_gt_lt. now apply time_gt_of_minute.
Qed.

(** On minutes, the decision is a comparison of the three numbers. *)
Lemma should_be_online_of_minute (n s e : Z) :
  0 <= n < 1440 -> 0 <= s < 1440 -> 0 <= e < 1440 ->
  should_be_online (of_minute n) (of_minute s) (of_minute e) =
  if s <? e then (s <? n) && (n <? e) else (s <? n) || (n <? e).
Proof.
  intros Hn Hs He. unfold should_be_online.
  rewrite (time_gt_of_minute e s He Hs), (time_gt_of_minute n s Hn Hs),
          (time_lt_of_minute n e Hn He).
  reflexivity.
Qed.

Lemma count_seq_S (p : nat -> bool) (N : nat) :
  length (List.filter p (seq 0 (S N))) =
  (length (List.filter p (seq 0 N)) + if p N then 1 else 0)%nat.
Proof.
  rewrite seq_S, List.filter_app, length_app. cbn [List.filter Nat.add].
  destruct (p N); reflexivity.
Qed.

Lemma count_inside (s e : Z) (N : nat) :
  0 <= s ->
  Z.of_nat (length (List.filter
                      (fun n => (s <? Z.of_nat n) && (Z.of_nat n <? e))
                      (seq 0 N)))
  = Z.max 0 (Z.min (Z.of_nat N) e - s - 1).
Proof.
  intros Hs. induction N as [| N IH].
  - cbn. lia.
  - rewrite count_seq_S, Nat2Z.inj_add, IH.
    destruct (Z.ltb_spec s (Z.of_nat N)), (Z.ltb_spec (Z.of_nat N) e);
      cbn [andb]; lia.
Qed.

Lemma count_outside (s e : Z) (N : nat) :
  0 <= e <= s ->
  Z.of_nat (length (List.filter
                      (fun n => (s <? Z.of_nat n) || (Z.of_nat n <? e))
                      (seq 0 N)))
  = Z.min (Z.of_nat N) e + Z.max 0 (Z.of_nat N - s - 1).
Proof.
  intros Hes. induction N as [| N IH].
  - cbn. lia.
  - rewrite count_seq_S, Nat2Z.inj_add, IH.
    destruct (Z.ltb_spec s (Z.of_nat N)), (Z.ltb_spec (Z.of_nat N) e);
      cbn [orb]; lia.
Qed.



(** ** What the parser accepts *)

Lemma digit_of_range (c : ascii) (d : Z) : digit_of c = Some d -> 0 <= d <= 9.
Proof.
  unfold digit_of.
  destruct (Z.leb_spec 48 (Z.of_N (N_of_ascii c)));
    destruct (Z.leb_spec (Z.of_N (N_of_ascii c)) 57); cbn [andb];
    intros Hd; inversion Hd; lia.
Qed.

Lemma first_success_Some {A B : Type}
    (alts : list (string -> option (A * string)))
    (k : A -> string -> option B) (s : string) (b : B) :
  first_success alts k s = Some b ->
  exists p a rest, In p alts /\ p s = Some (a, rest) /\ k a rest = Some b.
Proof.
  induction alts as [| p ps IH]; [discriminate |].
  cbn [first_success].
  destruct (p s) as [[a rest] |] eqn:Ep.
  - destruct (k a rest) as [b' |] eqn:Ek.
    + intros Hb. injection Hb as ->.
      exists p, a, rest. split; [now left | split; assumption].
    + intros Hb. destruct (IH Hb) as (q & a' & rest' & Hin & Hq & Hk).
      exists q, a', rest'. split; [now right | split; assumption].
  - intros Hb. destruct (IH Hb) as (q & a' & rest' & Hin & Hq & Hk).
    exists q, a', rest'. split; [now right | split; assumption].
Qed.

Lemma two_digits_Some (ok : Z -> Z -> bool) (s rest : string) (v : Z) :
  two_digits ok s = Some (v, rest) ->
  exists c1 c2 d1 d2,
    s = String c1 (String c2 rest) /\ 0 <= d1 <= 9 /\ 0 <= d2 <= 9 /\
    ok d1 d2 = true /\ v = 10 * d1 + d2.
Proof.
  unfold two_digits.
  destruct s as [| c1 [| c2 s']]; try discriminate.
  destruct (digit_of c1) as [d1 |] eqn:E1; [| discriminate].
  destruct (digit_of c2) as [d2 |] eqn:E2; [| discriminate].
  destruct (ok d1 d2) eqn:Eok; [| discriminate].
  intros Hv. injection Hv as <- <-.
  exists c1, c2, d1, d2.
  repeat split; try reflexivity; try assumption;
    first [ apply (digit_of_range c1 d1 E1) | apply (digit_of_range c2 d2 E2) ].
Qed.

Lemma one_digit_Some (s rest : string) (v : Z) :
  one_digit s = Some (v, rest) ->
  exists c, s = String c rest /\ 0 <= v <= 9.
Proof.
  unfold one_digit. destruct s as [| c s']; [discriminate |].
  destruct (digit_of c) as [d |] eqn:E; [| discriminate].
  intros Hv. injection Hv as <- <-.
  exists c. split; [reflexivity | exact (digit_of_range c d E)].
Qed.

(** The hour group takes one or two characters and gives 0 to 23. *)
Lemma re_H_range (p : string -> option (Z * string)) (s rest : string) (h : Z) :
  In p re_H -> p s = Some (h, rest) ->
  0 <= h < 24 /\
  (String.length s = S (String.length rest) \/
   String.length s = S (S (String.length rest))).
Proof.
  unfold re_H. intros [<- | [<- | [<- | []]]] Hp.
  - apply two_digits_Some in Hp as (c1 & c2 & d1 & d2 & -> & B1 & B2 & Hok & ->).
    apply andb_true_iff in Hok as [E1 E2].
    apply Z.eqb_eq in E1. apply Z.leb_le in E2.
    split; [lia | right; reflexivity].
  - apply two_digits_Some in Hp as (c1 & c2 & d1 & d2 & -> & B1 & B2 & Hok & ->).
    apply Z.leb_le in Hok.
    split; [lia | right; reflexivity].
  - apply one_digit_Some in Hp as (c & -> & B).
    split; [lia | left; reflexivity].
Qed.

(** The minute group takes one or two characters and gives 0 to 59. *)
Lemma re_M_range (p : string -> option (Z * string)) (s rest : string) (m : Z) :
  In p re_M -> p s = Some (m, rest) ->
  0 <= m < 60 /\
  (String.length s = S (String.length rest) \/
   String.length s = S (S (String.length rest))).
Proof.
  unfold re_M. intros [<- | [<- | []]] Hp.
  - apply two_digits_Some in Hp as (c1 & c2 & d1 & d2 & -> & B1 & B2 & Hok & ->).
    apply Z.leb_le in Hok.
    split; [lia | right; reflexivity].
  - apply one_digit_Some in Hp as (c & -> & B).
    split; [lia | left; reflexivity].
Qed.



(** Hour and minute may each be written without the leading zero: for an
    hour below ten and a minute below ten, the four spellings H:M, H:MM,
    HH:M and HH:MM are read as the same time. *)
Theorem strptime_leading_zero_optional (h m : Z) :
  0 <= h <= 9 -> 0 <= m <= 9 ->
  let H := String (digit_char h) EmptyString in
  let Mi := String (digit_char m) EmptyString in
  let zero := String (digit_char 0) EmptyString in
  strptime (H +:+ ":" +:+ Mi) = Return (hm h m) /\
  strptime (H +:+ ":" +:+ zero +:+ Mi) = Return (hm h m) /\
  strptime (zero +:+ H +:+ ":" +:+ Mi) = Return (hm h m) /\
  strptime (zero +:+ H +:+ ":" +:+ zero +:+ Mi) = Return (hm h m).
Proof.
  intros Hh Hm.
  assert (h = 0 \/ h = 1 \/ h = 2 \/ h = 3 \/ h = 4 \/
          h = 5 \/ h = 6 \/ h = 7 \/ h = 8 \/ h = 9) as Ch by lia.
  assert (m = 0 \/ m = 1 \/ m = 2 \/ m = 3 \/ m = 4 \/
          m = 5 \/ m = 6 \/ m = 7 \/ m = 8 \/ m = 9) as Cm by lia.
  repeat (destruct Ch as [-> | Ch]);
    try subst h;
    repeat (destruct Cm as [-> | Cm]);
    try subst m;
    cbv zeta; repeat split; reflexivity.
Qed.

Lemma strptime_leading_zero_optional_witness :
  0 <= 9 <= 9 /\ 0 <= 5 <= 9 /\ strptime "9:5" = Return (hm 9 5).
Proof.
  assert (0 <= 9 <= 9) as H1 by lia.
  assert (0 <= 5 <= 9) as H2 by lia.
  split; [exact H1 |]. split; [exact H2 |].
  exact (proj1 (strptime_leading_zero_optional 9 5 H1 H2)).
Defined.

(** ** One record: errors and calls *)

Local Open Scope string_scope.

(** A record that has the key Schedule but not the nested shape under it:
    a value that is not a dictionary is a TypeError, a dictionary without
    M is the KeyError of M, and an M without Start-Time is the KeyError of
    Start-Time.  Nothing is dispatched in any of these cases. *)
Theorem update_server_malformed_schedule (now : time)
    (server : gmap string value) (sched : value) :
  server !! "Schedule" = Some sched ->
  ((forall m, sched <> VMap m) ->
     update_server now server = (Raise TypeError, [])) /\
  (forall m, sched = VMap m -> m !! "M" = None ->
     update_server now server = (Raise (KeyError "M"), [])) /\
  (forall m inner, sched = VMap m -> m !! "M" = Some (VMap inner) ->
     inner !! "Start-Time" = None ->
     update_server now server = (Raise (KeyError "Start-Time"), [])).
Proof.
  intros Hsched.
  assert (negb (bool_decide (is_Some (server !! "Schedule"))) = false) as Hkey.
  { rewrite bool_decide_eq_true_2; [reflexivity | rewrite Hsched; eauto]. }
  assert (forall e,
            subscript (VMap server) ["Schedule"; "M"; "Start-Time"; "S"] = Raise e ->
            update_server now server = (Raise e, [])) as Hraise.
  { intros e He. unfold update_server. rewrite Hkey, He. reflexivity. }
  split; [| split].
  - intros Hnot. apply Hraise. cbn [subscript getitem]. rewrite Hsched.
    destruct sched as [s | n | m]; try reflexivity.
    exfalso. now apply (Hnot m).
  - intros m -> Hm. apply Hraise. cbn [subscript getitem].
    rewrite Hsched. cbn [subscript getitem]. rewrite Hm. reflexivity.
  - intros m inner -> Hm Hinner. apply Hraise. cbn [subscript getitem].
    rewrite Hsched. cbn [subscript getitem]. rewrite Hm.
    cbn [subscript getitem]. rewrite Hinner. reflexivity.
Qed.

(** An item whose Schedule is the text 09:00-17:00. *)
Lemma update_server_malformed_schedule_witness :
  (<["Schedule" := VStr "09:00-17:00"]> (unscheduled_item "a" (VStr "Offline"))
     : gmap string value) !! "Schedule" = Some (VStr "09:00-17:00") /\
  update_server (hm 12 0)
    (<["Schedule" := VStr "09:00-17:00"]> (unscheduled_item "a" (VStr "Offline")))
  = (Raise TypeError, []).
Proof.
  assert ((<["Schedule" := VStr "09:00-17:00"]>
             (unscheduled_item "a" (VStr "Offline")) : gmap string value)
          !! "Schedule" = Some (VStr "09:00-17:00")) as Hs by reflexivity.
  split; [exact Hs |].
  apply (proj1 (update_server_malformed_schedule (hm 12 0) _ _ Hs)).
  intros m. discriminate.
Defined.





(** One record gives rise to at most one call, and that call is the start
    of the record itself. *)
Theorem update_server_dispatches_at_most_one_start (now : time)
    (server : gmap string value) :
  (length (snd (update_server now server)) <= 1)%nat /\
  forall c, In c (snd (update_server now server)) -> c = CallStart server.
Proof.
  destruct (update_server_calls now server) as [-> | ->].
  - split; [cbn; lia | intros c []].
  - split; [cbn; lia | intros c [<- | []]; reflexivity].
Qed.

(** A record is dispatched only after both texts have been read and
    parsed: when its update raises, it has made no call. *)
Theorem update_server_raises_before_dispatch (now : time)
    (server : gmap string value) (e : exn) :
  fst (update_server now server) = Raise e ->
  update_server now server = (Raise e, []).
Proof.
  intros Hraise.
  pose proof (update_server_raise_no_calls now server e Hraise) as Hcalls.
  destruct (update_server now server) as [r t]. cbn [fst snd] in *.
  now subst.
Qed.

Lemma update_server_raises_before_dispatch_witness :
  fst (update_server (hm 12 0) item_bad) = Raise ValueError /\
  update_server (hm 12 0) item_bad = (Raise ValueError, []).
Proof.
  assert (fst (update_server (hm 12 0) item_bad) = Raise ValueError) as Hr
    by reflexivity.
  split; [exact Hr |].
  exact (update_server_raises_before_dispatch (hm 12 0) item_bad ValueError Hr).
Defined.

Lemma update_server_same_schedule (now : time)
    (server1 server2 : gmap string value) :
  server1 !! "Schedule" = server2 !! "Schedule" ->
  fst (update_server now server1) = fst (update_server now server2) /\
  map is_start (snd (update_server now server1))
  = map is_start (snd (update_server now server2)).
Proof.
  intros Hsame. unfold update_server.
  assert (forall keys,
            subscript (VMap server1) ("Schedule" :: keys)
            = subscript (VMap server2) ("Schedule" :: keys)) as Hsub.
  { intros keys. cbn [subscript getitem]. now rewrite Hsame. }
  rewrite Hsame, !Hsub.
  destruct (negb (bool_decide (is_Some (server2 !! "Schedule"))));
    [split; reflexivity |].
  unfold lift, bind.
  destruct (subscript (VMap server2) ["Schedule"; "M"; "Start-Time"; "S"])
    as [v1 | e1]; [| split; reflexivity].
  destruct (strptime_value v1) as [t1 | e2]; [| split; reflexivity].
  destruct (subscript (VMap server2) ["Schedule"; "M"; "Stop-Time"; "S"])
    as [v2 | e3]; [| split; reflexivity].
  destruct (strptime_value v2) as [t2 | e4]; [| split; reflexivity].
  unfold is_server_online, truthy. cbn [andb negb].
  destruct (should_be_online now t1 t2); split; reflexivity.
Qed.

(** The outcome for a record depends on its attribute Schedule and on the
    time only: two records with the same Schedule, whatever their
    identifiers, stored states and other attributes, both return or raise
    the same exception, and both are started or neither is. *)
Theorem update_server_depends_on_schedule_only (now : time)
    (server1 server2 : gmap string value) :
  server1 !! "Schedule" = server2 !! "Schedule" ->
  fst (update_server now server1) = fst (update_server now server2) /\
  map is_start (snd (update_server now server1))
  = map is_start (snd (update_server now server2)).
Proof. apply update_server_same_schedule. Qed.

(** Two records with one schedule, different identifiers and states. *)
Lemma update_server_depends_on_schedule_only_witness :
  scheduled_item "a" "09:00" "17:00" (VStr "Online") !! "Schedule"
  = scheduled_item "b" "09:00" "17:00" (VStr "Offline") !! "Schedule" /\
  fst (update_server (hm 12 0) (scheduled_item "a" "09:00" "17:00" (VStr "Online")))
  = fst (update_server (hm 12 0) (scheduled_item "b" "09:00" "17:00" (VStr "Offline"))).
Proof.
  assert (scheduled_item "a" "09:00" "17:00" (VStr "Online") !! "Schedule"
          = scheduled_item "b" "09:00" "17:00" (VStr "Offline") !! "Schedule")
    as Hs by reflexivity.
  split; [exact Hs |].
  exact (proj1 (update_server_depends_on_schedule_only (hm 12 0) _ _ Hs)).
Defined.

Local Close Scope string_scope.

(** ** The loop and the handler *)

Section Pass.

Variable now : time.

Lemma update_servers_app (data1 data2 : list (gmap string value)) :
  update_servers now (data1 ++ data2) =
  bind (update_servers now data1) (fun _ => update_servers now data2).
Proof.
  induction data1 as [| server rest IH].
  - cbn [app]. unfold bind at 1. cbn [update_servers ret].
    destruct (update_servers now data2) as [r t]. reflexivity.
  - rewrite <- app_comm_cons, !update_servers_cons, IH. unfold bind.
    destruct (update_server now server) as [[[] | e] t]; [| reflexivity].
    destruct (update_servers now rest) as [[[] | e'] t'].
    + destruct (update_servers now data2) as [r2 t2]. now rewrite app_assoc.
    + reflexivity.
Qed.

(** When every record returns, the loop returns and its calls are those of
    the records, one record after the other. *)
Lemma update_servers_all_return (data : list (gmap string value)) :
  Forall (fun server => fst (update_server now server) = Return tt) data ->
  update_servers now data =
    (Return tt, flat_map (fun server => snd (update_server now server)) data).
Proof.
  induction 1 as [| server rest Hone _ IH]; [reflexivity |].
  rewrite update_servers_cons, IH. unfold bind. cbn [flat_map].
  destruct (update_server now server) as [[[] | e] t]; [| discriminate].
  reflexivity.
Qed.

(** When the loop returns, every record has returned. *)
Lemma update_servers_returned (data : list (gmap string value)) :
  fst (update_servers now data) = Return tt ->
  Forall (fun server => fst (update_server now server) = Return tt) data.
Proof.
  induction data as [| server rest IH]; [constructor |].
  rewrite update_servers_cons. unfold bind.
  destruct (update_server now server) as [[[] | e] t] eqn:E; [| discriminate].
  destruct (update_servers now rest) as [r t']. cbn [fst] in *.
  intros Hr. constructor; [now rewrite E | now apply IH].
Qed.

Lemma update_servers_calls_bounded (data : list (gmap string value)) :
  (length (snd (update_servers now data)) <= length data)%nat.
Proof.
  induction data as [| server rest IH]; [cbn; lia |].
  rewrite update_servers_cons. unfold bind.
  pose proof (update_server_calls now server) as Hone.
  destruct (update_server now server) as [[[] | e] t]; cbn [snd] in *.
  - destruct (update_servers now rest) as [r t']. cbn [snd length] in *.
    rewrite length_app. destruct Hone as [-> | ->]; cbn [length]; lia.
  - destruct Hone as [-> | ->]; cbn [length]; lia.
Qed.

Lemma update_servers_skip_unscheduled (data : list (gmap string value)) :
  update_servers now (List.filter scheduled data) = update_servers now data.
Proof.
  induction data as [| server rest IH]; [reflexivity |].
  cbn [List.filter]. destruct (scheduled server) eqn:Es.
  - now rewrite !update_servers_cons, IH.
  - rewrite update_servers_cons, IH.
    rewrite (update_server_unscheduled now server).
    + unfold bind. destruct (update_servers now rest) as [r t]. reflexivity.
    + unfold scheduled in Es. apply bool_decide_eq_false in Es.
      destruct (server !! "Schedule"%string); [| reflexivity].
      exfalso. apply Es. eauto.
Qed.

End Pass.

(** The scan keeps the number and the order of the items, and an item
    keeps its Schedule. *)
Lemma _get_server_data_Schedule (item : gmap string value) :
  filter (fun kv : string * value => kv.1 ∈ projection) item !! "Schedule"%string
  = item !! "Schedule"%string.
Proof.
  rewrite map_lookup_filter.
  destruct (item !! "Schedule"%string) as [x |]; [| reflexivity].
  cbn. rewrite option_guard_True; [reflexivity |].
  unfold projection. cbn. set_solver.
Qed.

Lemma _get_server_data_scheduled (table : list (gmap string value)) :
  _get_server_data (List.filter scheduled table)
  = List.filter scheduled (_get_server_data table).
Proof.
  unfold _get_server_data.
  induction table as [| item rest IH]; [reflexivity |].
  cbn [List.filter map].
  assert (scheduled (filter (fun kv : string * value => kv.1 ∈ projection) item)
          = scheduled item) as Hs
    by (unfold scheduled; now rewrite _get_server_data_Schedule).
  rewrite Hs. destruct (scheduled item); cbn [map]; now rewrite IH.
Qed.

(** A pass completes exactly when the update of every scanned record
    returns; its calls are then those of the records, in the order of the
    scan. *)
Theorem lambda_handler_returns_iff (now : time) (event context : value)
    (table : list (gmap string value)) :
  (fst (lambda_handler now event context table) = Return hello_world <->
   Forall (fun server => fst (update_server now server) = Return tt)
     (_get_server_data table)) /\
  (fst (lambda_handler now event context table) = Return hello_world ->
   snd (lambda_handler now event context table) =
   flat_map (fun server => snd (update_server now server))
     (_get_server_data table)).
Proof.
  rewrite lambda_handler_unfold.
  split; [split |].
  - intros Hr. apply update_servers_returned.
    destruct (update_servers now (_get_server_data table)) as [[[] | e] t];
      [reflexivity | discriminate].
  - intros Hall. now rewrite (update_servers_all_return now _ Hall).
  - intros Hr.
    assert (Forall (fun server => fst (update_server now server) = Return tt)
              (_get_server_data table)) as Hall.
    { apply update_servers_returned.
      destruct (update_servers now (_get_server_data table)) as [[[] | e] t];
        [reflexivity | discriminate]. }
    now rewrite (update_servers_all_return now _ Hall).
Qed.

(** The pass at noon over a record that is due a start and one without a
    schedule. *)
Lemma lambda_handler_returns_iff_witness :
  fst (lambda_handler (hm 12 0) (VMap ∅) (VMap ∅)
         [item_good; unscheduled_item "u" (VStr "Online")]) = Return hello_world /\
  snd (lambda_handler (hm 12 0) (VMap ∅) (VMap ∅)
         [item_good; unscheduled_item "u" (VStr "Online")]) =
  flat_map (fun server => snd (update_server (hm 12 0) server))
    (_get_server_data [item_good; unscheduled_item "u" (VStr "Online")]).
Proof.
  assert (fst (lambda_handler (hm 12 0) (VMap ∅) (VMap ∅)
                 [item_good; unscheduled_item "u" (VStr "Online")])
          = Return hello_world) as Hr by reflexivity.
  split; [exact Hr |].
  exact (proj2 (lambda_handler_returns_iff (hm 12 0) (VMap ∅) (VMap ∅)
                  [item_good; unscheduled_item "u" (VStr "Online")]) Hr).
Defined.

(** A pass ends with the exception of the first scanned record whose
    update raises, of whatever kind; the calls made are those of the
    records before it, and the records after it are not reached. *)
Theorem lambda_handler_raises_first_exception (now : time)
    (event context : value) (table before after : list (gmap string value))
    (bad : gmap string value) (e : exn) :
  _get_server_data table = before ++ bad :: after ->
  Forall (fun server => fst (update_server now server) = Return tt) before ->
  fst (update_server now bad) = Raise e ->
  lambda_handler now event context table =
    (Raise e, flat_map (fun server => snd (update_server now server)) before).
Proof.
  intros Hscan Hbefore Hbad.
  rewrite lambda_handler_unfold, Hscan.
  rewrite (update_servers_abort now before after bad e).
  - rewrite (update_server_raise_no_calls now bad e Hbad), app_nil_r.
    now rewrite (update_servers_all_return now before Hbefore).
  - now rewrite (update_servers_all_return now before Hbefore).
  - exact Hbad.
Qed.

(** A record due a start, then one whose Schedule is a text, then one
    more: the TypeError of the second ends the pass after one start. *)
Lemma lambda_handler_raises_first_exception_witness :
  lambda_handler (hm 12 0) (VMap ∅) (VMap ∅)
    [item_good; {[ "Schedule"%string := VStr "always" ]}; item_good]
  = (Raise TypeError,
     flat_map (fun server => snd (update_server (hm 12 0) server)) [item_good]).
Proof.
  apply (lambda_handler_raises_first_exception (hm 12 0) (VMap ∅) (VMap ∅)
           [item_good; {[ "Schedule"%string := VStr "always" ]}; item_good]
           [item_good] [item_good] {[ "Schedule"%string := VStr "always" ]}
           TypeError).
  - reflexivity.
  - constructor; [reflexivity | constructor].
  - reflexivity.
Defined.

(** A pass dispatches at most one call for each item of the table. *)
Theorem lambda_handler_calls_bounded (now : time) (event context : value)
    (table : list (gmap string value)) :
  (length (snd (lambda_handler now event context table)) <= length table)%nat.
Proof.
  rewrite lambda_handler_calls.
  pose proof (update_servers_calls_bounded now (_get_server_data table)) as Hb.
  unfold _get_server_data in Hb at 2. rewrite length_map in Hb. exact Hb.
Qed.







(** ** The environment and the stack *)


(** The function the stack deploys finds its table: for every value of the
    parameter DatabaseName, the handler run in the environment that the
    stack gives the scheduler function scans the table of that name. *)
Theorem deployed_scheduler_scans_its_table (db_name : string)
    (dynamodb : string -> list (gmap string value))
    (now : time) (event context : value) :
  lambda_handler_in (Stack.environment (Stack.scheduler_function db_name))
    dynamodb now event context
  = lambda_handler now event context (dynamodb db_name).
Proof.
  unfold lambda_handler_in, _get_table.
  unfold Stack.scheduler_function, Stack.add_to_role_policy. cbn [Stack.environment].
  rewrite lookup_singleton_eq. unfold lift, bind.
  destruct (lambda_handler now event context (dynamodb db_name)) as [r t].
  reflexivity.
Qed.

Lemma stack_lists_scan (db_name : string) :
  Stack.lists (Stack.database_perms db_name) "dynamodb:Scan"
    ("arn:aws:dynamodb:*:*:table/" +:+ db_name) = true.
Proof.
  unfold Stack.lists, Stack.database_perms.
  cbn [Stack.effect Stack.actions Stack.resources].
  apply andb_true_iff. split; apply bool_decide_eq_true; set_solver.
Qed.

(** Each of the three Lambda functions of the stack is given the same
    table name in DATABASE_NAME, and its role is allowed the action
    dynamodb:Scan on the table of that name. *)
Theorem stack_functions_share_the_table (db_name data_bucket_name
    resources_bucket_name server_instance_profile_arn server_role_arn : string)
    (f : Stack.Function) :
  In f (Stack.functions db_name data_bucket_name resources_bucket_name
          server_instance_profile_arn server_role_arn) ->
  _get_table (Stack.environment f) = Return db_name /\
  existsb
    (fun statement =>
       Stack.lists statement "dynamodb:Scan"
         ("arn:aws:dynamodb:*:*:table/" +:+ db_name))
    (Stack.role_policy f) = true.
Proof.
  unfold Stack.functions.
  intros [<- | [<- | [<- | []]]].
  - split.
    + unfold _get_table, Stack.scheduler_function, Stack.add_to_role_policy.
      cbn [Stack.environment]. now rewrite lookup_singleton_eq.
    + unfold Stack.scheduler_function, Stack.add_to_role_policy.
      cbn [Stack.role_policy app existsb]. now rewrite stack_lists_scan.
  - split.
    + unfold _get_table, Stack.server_starter_function, Stack.add_to_role_policy.
      cbn [Stack.environment]. now rewrite lookup_insert_eq.
    + unfold Stack.server_starter_function, Stack.add_to_role_policy.
      cbn [Stack.role_policy app existsb]. now rewrite stack_lists_scan.
  - split.
    + unfold _get_table, Stack.server_stopper_function, Stack.add_to_role_policy.
      cbn [Stack.environment]. now rewrite lookup_singleton_eq.
    + unfold Stack.server_stopper_function, Stack.add_to_role_policy.
      cbn [Stack.role_policy app existsb]. now rewrite stack_lists_scan.
Qed.

(** The scheduler function of the stack for the table servers. *)
Lemma stack_functions_share_the_table_witness :
  In (Stack.scheduler_function "servers")
     (Stack.functions "servers" "data" "resources" "profile" "role") /\
  _get_table (Stack.environment (Stack.scheduler_function "servers"))
  = Return "servers"%string.
Proof.
  assert (In (Stack.scheduler_function "servers")
             (Stack.functions "servers" "data" "resources" "profile" "role"))
    as Hin by (left; reflexivity).
  split; [exact Hin |].
  exact (proj1 (stack_functions_share_the_table "servers" "data" "resources"
                  "profile" "role" _ Hin)).
Defined.

(** ** Which exceptions a record can raise *)

Lemma subscript_raise (keys : list string) (v : value) (e : exn) :
  subscript v keys = Raise e ->
  e = TypeError \/ exists key, In key keys /\ e = KeyError key.
Proof.
  revert v. induction keys as [| key rest IH]; intros v; [discriminate |].
  cbn [subscript]. unfold getitem.
  destruct v as [s | n | m].
  - intros He. injection He as <-. now left.
  - intros He. injection He as <-. now left.
  - destruct (m !! key) as [x |].
    + intros He. destruct (IH x He) as [-> | (k & Hin & ->)]; [now left |].
      right. exists k. split; [now right | reflexivity].
    + intros He. injection He as <-.
      right. exists key. split; [now left | reflexivity].
Qed.

Lemma strptime_value_raise (v : value) (e : exn) :
  strptime_value v = Raise e -> e = TypeError \/ e = ValueError.
Proof.
  destruct v as [s | n | m]; cbn [strptime_value].
  - intros He. right. exact (strptime_raises_ValueError s e He).
  - intros He. injection He as <-. now left.
  - intros He. injection He as <-. now left.
Qed.



(** The role of the scheduler function is allowed actions of DynamoDB
    only, and on the one table of the stack only: whatever action and
    resource one of its statements lists, the action begins with
    dynamodb: and the resource is that table. *)
Theorem scheduler_role_is_confined (db_name action resource : string) :
  existsb (fun statement => Stack.lists statement action resource)
    (Stack.role_policy (Stack.scheduler_function db_name)) = true ->
  String.prefix "dynamodb:" action = true /\
  resource = ("arn:aws:dynamodb:*:*:table/" +:+ db_name)%string.
Proof.
  unfold Stack.scheduler_function, Stack.add_to_role_policy.
  cbn [Stack.role_policy app existsb]. rewrite orb_false_r.
  unfold Stack.lists, Stack.database_perms.
  cbn [Stack.effect Stack.actions Stack.resources].
  intros Hl. apply andb_true_iff in Hl as [Ha Hr].
  apply bool_decide_eq_true in Ha. apply bool_decide_eq_true in Hr.
  split.
  - repeat (apply elem_of_cons in Ha as [-> | Ha]; [reflexivity |]).
    now apply elem_of_nil in Ha.
  - apply elem_of_cons in Hr as [-> | Hr]; [reflexivity |].
    now apply elem_of_nil in Hr.
Qed.

Lemma scheduler_role_is_confined_witness :
  existsb (fun statement =>
             Stack.lists statement "dynamodb:Scan"
               "arn:aws:dynamodb:*:*:table/servers")
    (Stack.role_policy (Stack.scheduler_function "servers")) = true /\
  String.prefix "dynamodb:" "dynamodb:Scan" = true.
Proof.
  assert (existsb (fun statement =>
                     Stack.lists statement "dynamodb:Scan"
                       "arn:aws:dynamodb:*:*:table/servers")
            (Stack.role_policy (Stack.scheduler_function "servers")) = true)
    as Hl by reflexivity.
  split; [exact Hl |].
  exact (proj1 (scheduler_role_is_confined "servers" "dynamodb:Scan"
                  "arn:aws:dynamodb:*:*:table/servers" Hl)).
Defined.
